(** * lean-api: a shallow embedding of the request-handling adapter

    The development follows the TypeScript sources, one module per source
    module:

    - [Errors]       the [HttpError] taxonomy;
    - [Responses]    the response builders, pagination and download headers;
    - [Validation]   [validateWithSchema];
    - [GuardEngine]  [initGuards];
    - [Handler]      [handleRoute];
    - [Schemas]      the default query schema and [querySchemaToRange].

    Modelling conventions.

    - A JavaScript number is a [Z]: every number the library computes with is
      an integer (status codes, page numbers, counts), and on integers below
      2^53 the double-precision operations used here ([-], [*], [/] followed
      by [Math.ceil], comparisons) agree with the exact ones.
    - A JavaScript string is the [string] of its UTF-8 bytes, so the model
      covers well-formed strings.  The characters the code inspects are all
      ASCII, and an ASCII byte never occurs inside a multi-byte sequence.
    - A plain object is a finite map from property names to values; the
      order of the properties is not modelled.
    - A call of user-supplied code (an authentication function, a permission
      check, the route's own logic, a body reader) has a result in [Res]: a
      value or a thrown error.  The statements of the asynchronous handler
      are computations in [M], which also records the operations performed,
      in order. *)

From Stdlib Require Import ZArith NArith QArith Qround Lia.
From Stdlib Require Import Ascii String HexadecimalString List Bool.
From stdpp Require Import base option gmap strings list fin_maps pretty.
Import ListNotations.

Set Warnings "-register-all".

Open Scope string_scope.
Open Scope Z_scope.

(** ** JavaScript values *)

Inductive value : Type :=
  | VUndefined
  | VNull
  | VBool (b : bool)
  | VNum (n : Z)
  | VStr (s : string)
  | VArr (l : list value)
  | VObj (m : gmap string value).

(** [a ?? b] *)
Definition nullish (a b : value) : value :=
  match a with
  | VUndefined | VNull => b
  | _ => a
  end.

(** The string of one character, for the indexed properties of a string. *)
Definition chars (s : string) : list value :=
  map (fun c => VStr (String c "")) (list_ascii_of_string s).

(** The properties [0], [1], ... of an array-like value. *)
Definition indexed (l : list value) : gmap string value :=
  list_to_map (imap (fun (i : nat) v => (pretty i, v)) l).

(** The own enumerable properties that an object spread [{...v}] copies.
    For a string the indices are those of the model's characters, which are
    the JavaScript ones on ASCII strings. *)
Definition ownProps (v : value) : gmap string value :=
  match v with
  | VObj m => m
  | VArr l => indexed l
  | VStr s => indexed (chars s)
  | _ => ∅
  end.

(** [{...a, ...b}]: the properties of [b] win. *)
Definition spread (a b : gmap string value) : gmap string value := b ∪ a.

(** ** String builtins *)

Module JS.

(** The double quote character, as a string. *)
Definition dquote : string := String (ascii_of_nat 34) EmptyString.

(** [s.startsWith(p)] *)
Definition startsWith (s p : string) : bool := String.prefix p s.

(** [s.includes(sub)] *)
Fixpoint includes (s sub : string) : bool :=
  String.prefix sub s ||
  match s with
  | EmptyString => false
  | String _ s' => includes s' sub
  end.

(** [s.replace(/[...]/g, f)] for a character class [cls] and a replacer [f]
    applied to each matched character. *)
Fixpoint replaceClass (cls : ascii -> bool) (f : ascii -> string) (s : string)
  : string :=
  match s with
  | EmptyString => EmptyString
  | String c s' =>
      (if cls c then f c else String c EmptyString) ++ replaceClass cls f s'
  end.







Definition one_of (cs : string) (c : ascii) : bool :=
  existsb (Ascii.eqb c) (list_ascii_of_string cs).







End JS.

(** ** Responses (the part of the Fetch API the library uses) *)

Inductive Body : Type :=
  | JsonBody (v : value)
  | RawBody (b : option string).

Record Response : Type := mkResponse {
  status : Z;
  headers : gmap string string;
  body : Body
}.

(** The [status] and the [headers] of a [ResponseInit], the headers under
    their lower-case names. *)
Record ResponseInit : Type := mkInit {
  init_status : option Z;
  init_headers : gmap string string
}.

Definition lower_ascii (c : ascii) : ascii :=
  let n := nat_of_ascii c in
  if ((65 <=? n)%nat && (n <=? 90)%nat)%bool then ascii_of_nat (n + 32) else c.

Fixpoint lower (s : string) : string :=
  match s with
  | EmptyString => EmptyString
  | String c s' => String (lower_ascii c) (lower s')
  end.

(** [Headers.prototype.set]: names are case-insensitive and kept in lower
    case. *)
Definition Headers_set (name v : string) (h : gmap string string)
  : gmap string string :=
  <[lower name := v]> h.

Definition Headers_get (name : string) (h : gmap string string)
  : option string :=
  h !! lower name.

(** [Response.json(data, init)]: status 200 unless [init] gives one, and a
    JSON content type unless [init] gives one. *)
Definition Response_json (data : value) (init : ResponseInit) : Response :=
  {| status := default 200 (init_status init);
     headers :=
       match Headers_get "content-type" (init_headers init) with
       | Some _ => init_headers init
       | None => Headers_set "content-type" "application/json" (init_headers init)
       end;
     body := JsonBody data |}.

(** [{ status: s, ...init }] for an optional [init]. *)
Definition with_status (s : Z) (init : option ResponseInit) : ResponseInit :=
  match init with
  | None => {| init_status := Some s; init_headers := ∅ |}
  | Some i =>
      {| init_status := Some (default s (init_status i));
         init_headers := init_headers i |}
  end.

(** ** The response builders *)

Module Responses.

Definition httpOk (data : value) (init : option ResponseInit) : Response :=
  Response_json data (with_status 200 init).

Definition httpDeleted (data : value) (init : option ResponseInit) : Response :=
  Response_json
    (VObj (spread {[ "deleted" := VBool true ]} (ownProps (nullish data (VObj ∅)))))
    (with_status 200 init).


Definition httpError (st : Z) (message : string) : Response :=
  Response_json
    (VObj {[ "error" := VObj {[ "message" := VStr message ]} ]})
    {| init_status := Some st; init_headers := ∅ |}.

(** *** Pagination *)

Record PageInfo : Type := mkPageInfo {
  page : Z;
  pageCount : Z;
  limit : Z;
  total : Z;
  hasNext : bool;
  hasPrev : bool
}.

(** [Math.ceil(a / b)], with the quotient taken in the rationals. *)
Definition Math_ceil_div (a b : Z) : Z :=
  Qceiling (inject_Z a / inject_Z b).

Definition buildPageInfo (total page limit : Z) : PageInfo :=
  let safeLimit := Z.max 1 limit in
  let pageCount := Z.max 1 (Math_ceil_div total safeLimit) in
  {| page := page;
     pageCount := pageCount;
     limit := safeLimit;
     total := total;
     hasNext := page <? pageCount;
     hasPrev := 1 <? page |}.

Definition pageInfoProps (i : PageInfo) : gmap string value :=
  <["page" := VNum (page i)]>
  (<["pageCount" := VNum (pageCount i)]>
  (<["limit" := VNum (limit i)]>
  (<["total" := VNum (total i)]>
  (<["hasNext" := VBool (hasNext i)]>
  (<["hasPrev" := VBool (hasPrev i)]> ∅))))).

Definition httpOkPage (data : list value) (total page limit : Z)
    (extra : value) (init : option ResponseInit) : Response :=
  let info := buildPageInfo total page limit in
  let body :=
    spread (spread {[ "data" := VArr data ]} (pageInfoProps info))
           (ownProps (nullish extra (VObj ∅))) in
  Response_json (VObj body) (with_status 200 init).

(** *** Downloads *)


(** The two local constants of [buildContentDisposition]. *)
Definition fallback (filename : string) : string :=
  JS.replaceClass (JS.one_of ("/\" ++ JS.dquote)) (fun _ => "_") filename.





End Responses.

(** ** The error taxonomy *)

Module Errors.

(** What a [throw] can carry, as far as [handleRoute] tells them apart:
    the validation engine's own error, the library's [HttpError] and its
    subclasses, and anything else. *)
Inductive Exn : Type :=
  | ZodError (issues : list value)
  | HttpError (status : Z) (message : string)
  | OtherError (description : string).

Definition Unauthorized (msg : option string) : Exn :=
  HttpError 401 (default "Unauthorized" msg).
Definition Forbidden (msg : option string) : Exn :=
  HttpError 403 (default "Forbidden" msg).

End Errors.
Export Errors.

(** ** Computations *)

(** The outcome of a call of user-supplied code. *)
Inductive Res (A : Type) : Type :=
  | Ok (a : A)
  | Throw (e : Exn).
Arguments Ok {A} a.
Arguments Throw {A} e.

Inductive Kind : Type := Parameters | Query | Body_.

(** The operations of [handleRoute] that reach outside the pipeline, in the
    order in which they happen. *)
Inductive Event : Type :=
  | EvGuard              (* guard.permissionHandlerGenerator(action, req) *)
  | EvCheck              (* permissionHandler.handler() *)
  | EvAwaitParams        (* await ctx.params *)
  | EvValidate (k : Kind)  (* validateWithSchema(schema, value, kind) *)
  | EvFormData           (* await req.formData() *)
  | EvJson               (* await req.json() *)
  | EvUserLogic          (* await fn(ctx) *)
  | EvLog (e : Exn).     (* console.error(e) *)

(** How a block of statements completes: normally with a value, by a
    [throw], or by a [return] of the enclosing function. *)
Inductive Completion (A : Type) : Type :=
  | Normal (a : A)
  | Thrown (e : Exn)
  | Return (r : Response).
Arguments Normal {A} a.
Arguments Thrown {A} e.
Arguments Return {A} r.

Definition M (A : Type) : Type := (list Event * Completion A)%type.

#[global] Instance M_ret : MRet M := fun A a => ([], Normal a).

#[global] Instance M_bind : MBind M := fun A B f m =>
  match m with
  | (t, Normal a) => let '(t', c) := f a in ((t ++ t')%list, c)
  | (t, Thrown e) => (t, Thrown e)
  | (t, Return r) => (t, Return r)
  end.

Definition emit (ev : Event) : M unit := ([ev], Normal tt).

Definition lift {A} (r : Res A) : M A :=
  match r with
  | Ok a => ([], Normal a)
  | Throw e => ([], Thrown e)
  end.

(** [return r;] *)
Definition return_ {A} (r : Response) : M A := ([], Return r).

(** [try { m } catch (e) { h e }] *)
Definition tryCatch {A} (m : M A) (h : Exn -> M A) : M A :=
  match m with
  | (t, Thrown e) => let '(t', c) := h e in ((t ++ t')%list, c)
  | _ => m
  end.

(** The body of an [async] function whose statements are [m]: the trace,
    and the value the returned promise resolves to or the error it rejects
    with. *)
Definition async (m : M Response) : list Event * Res Response :=
  match m with
  | (t, Normal r) => (t, Ok r)
  | (t, Return r) => (t, Ok r)
  | (t, Thrown e) => (t, Throw e)
  end.

(** ** The schema validator adapter *)

Module Validation.

Inductive SafeParseResult : Type :=
  | Success (data : value)
  | Failure (issues : list value).

(** A schema, as far as the library uses it: its [safeParse]. *)
Definition Schema : Type := value -> SafeParseResult.

Definition kindName (k : Kind) : string :=
  match k with
  | Parameters => "parameters"
  | Query => "query"
  | Body_ => "body"
  end.

Definition validateWithSchema (schema : Schema) (v : value) (kind : Kind)
  : value + Response :=
  match schema v with
  | Success data => inl data
  | Failure issues =>
      inr (Response_json
             (VObj (<["error" := VStr ("Invalid " ++ kindName kind)]>
                    {[ "issues" := VArr issues ]}))
             {| init_status := Some 400; init_headers := ∅ |})
  end.

End Validation.
Export Validation.

(** ** Requests *)

Record Request : Type := mkRequest {
  (** [new URL(req.url).searchParams.entries()] *)
  searchParams : list (string * string);
  (** [req.headers.get("content-type")] *)
  contentTypeHeader : option string;
  (** the outcome of [req.json()] *)
  json : Res value;
  (** the outcome of [req.formData()]: the entries of the form *)
  formData : Res (list (string * value))
}.

(** [Object.fromEntries(entries)]: a later entry replaces an earlier one. *)
Definition fromEntries (entries : list (string * value)) : gmap string value :=
  foldl (fun obj kv => <[kv.1 := kv.2]> obj) ∅ entries.

(** ** The guard engine: [initGuards] *)

Module GuardEngine.

(** A registered check: a function with its declared number of parameters
    ([permission.length], here [arity]), applied to a list of arguments. *)
Record Permission : Type := mkPermission {
  arity : nat;
  call : list value -> Res bool
}.

(** [handler] takes [None] when it is called without an argument. *)
Record PermissionHandler : Type := mkPermissionHandler {
  handler : option value -> Res bool;
  needResource : bool;
  authData : value
}.

Record Guard : Type := mkGuard {
  permissionHandlerGenerator : string -> Request -> Res PermissionHandler;
  action : string
}.

Record InitGuardOptions : Type := mkOptions {
  guardChecks : gmap string Permission;
  auth : Request -> Res value
}.

Definition _permissionHandlerGenerator (options : InitGuardOptions)
    (action : string) (req : Request) : Res PermissionHandler :=
  match auth options req with
  | Throw e => Throw e
  | Ok authData =>
      match guardChecks options !! action with
      | None => Throw (OtherError "TypeError: permission is undefined")
      | Some permission =>
          let needResource := Nat.eqb (arity permission) 2 in
          let handler (resource : option value) : Res bool :=
            if Nat.eqb (arity permission) 1 then
              call permission [authData]
            else if Nat.eqb (arity permission) 2 then
              call permission [authData; default VUndefined resource]
            else Ok false in
          Ok {| handler := handler;
                needResource := needResource;
                authData := authData |}
      end
  end.

(** One guard per key of [guardChecks], all with the same generator. *)
Definition initGuards (options : InitGuardOptions) : gmap string Guard :=
  map_imap
    (fun action _ =>
       Some {| action := action;
               permissionHandlerGenerator := _permissionHandlerGenerator options |})
    (guardChecks options).

End GuardEngine.

(** ** The route handler: [handleRoute] *)

Module Handler.
Import Responses GuardEngine.

Record Schemas : Type := mkSchemas {
  paramsSchema : option Schema;
  querySchema : option Schema;
  bodySchema : option Schema
}.

(** [formDataToObject]: a key with several values holds the array of them,
    a key with one value holds that value. *)
Definition formDataToObject (fd : list (string * value)) : gmap string value :=
  foldl
    (fun obj key =>
       let all := (filter (fun kv => kv.1 = key) fd).*2 in
       <[key := if decide (1 < length all)%nat then VArr all
                else default VUndefined (head all)]> obj)
    ∅ (fd.*1).

(** [ctx.params] is an optional promise. *)
Record RouteContext : Type := mkRouteContext {
  params : option (Res value)
}.

(** The argument of the user's function. *)
Record FnCtx : Type := mkFnCtx {
  fn_req : Request;
  fn_params : value;
  fn_query : value;
  fn_body : value;
  handleResourcePermission : value -> Res unit;
  fn_authData : value
}.

Definition RouteHandler : Type :=
  Request -> RouteContext -> list Event * Res Response.

(** [schemas?.paramsSchema] and the like. *)
Definition schemaOf (sel : Schemas -> option Schema) (schemas : option Schemas)
  : option Schema :=
  schemas ≫= sel.

(** Lines 130-147: the guard, before the [try]. *)
Definition guardStep (guard : option Guard) (req : Request)
  : M ((value -> Res unit) * value) :=
  let handleResourcePermission : value -> Res unit := fun resource => Ok tt in
  let authData := VUndefined in
  match guard with
  | Some guard =>
      permissionHandler ←
        (emit EvGuard ;;
         lift (permissionHandlerGenerator guard (action guard) req));
      let authData := GuardEngine.authData permissionHandler in
      if negb (needResource permissionHandler) then
        authorized ← (emit EvCheck ;; lift (handler permissionHandler None));
        if negb authorized then return_ (httpError 403 "Forbidden")
        else mret (handleResourcePermission, authData)
      else
        let handleResourcePermission : value -> Res unit := fun resource =>
          match handler permissionHandler (Some resource) with
          | Ok authorized =>
              if negb authorized then Throw (Forbidden None) else Ok tt
          | Throw e => Throw e
          end in
        mret (handleResourcePermission, authData)
  | None => mret (handleResourcePermission, authData)
  end.

(** [const validated = validateWithSchema(...);
     if (validated instanceof Response) return validated;] *)
Definition validated (schema : Schema) (v : value) (kind : Kind) : M value :=
  emit (EvValidate kind) ;;
  match validateWithSchema schema v kind with
  | inl data => mret data
  | inr response => return_ response
  end.

(** Lines 149-159. *)
Definition paramsStep (schemas : option Schemas) (ctx : RouteContext) : M value :=
  invalidatedParams ←
    (emit EvAwaitParams ;;
     lift (match params ctx with
           | Some promise => promise
           | None => Ok VUndefined
           end));
  let paramsValue := nullish invalidatedParams (VObj ∅) in
  match schemaOf paramsSchema schemas with
  | Some schema => validated schema invalidatedParams Parameters
  | None => mret paramsValue
  end.

(** Lines 161-173. *)
Definition queryStep (schemas : option Schemas) (req : Request) : M value :=
  let queryValue := VObj ∅ in
  match schemaOf querySchema schemas with
  | Some schema =>
      let rawQuery := fromEntries (prod_map id VStr <$> searchParams req) in
      validated schema (VObj rawQuery) Query
  | None => mret queryValue
  end.

(** Lines 177-200: the raw body, by content type. *)
Definition readBody (req : Request) : M value :=
  let contentType := default "" (contentTypeHeader req) in
  tryCatch
    (if JS.startsWith contentType "multipart/form-data" then
       fd ← (emit EvFormData ;; lift (formData req));
       mret (VObj (formDataToObject fd))
     else if JS.includes contentType "application/json"
             || String.eqb contentType "" then
       emit EvJson ;; lift (json req)
     else
       return_ (Response_json
                  (VObj {[ "error" :=
                             VStr ("Unsupported Content-Type: " ++ contentType) ]})
                  {| init_status := Some 415; init_headers := ∅ |}))
    (fun _ =>
       return_ (Response_json
                  (VObj {[ "error" := VStr "Invalid request body" ]})
                  {| init_status := Some 400; init_headers := ∅ |})).

(** Lines 175-209. *)
Definition bodyStep (schemas : option Schemas) (req : Request) : M value :=
  let bodyValue := VUndefined in
  match schemaOf bodySchema schemas with
  | Some schema =>
      rawBody ← readBody req;
      validated schema rawBody Body_
  | None => mret bodyValue
  end.

(** Lines 221-231: the [catch] of the outer [try]. *)
Definition catchStep (e : Exn) : M Response :=
  match e with
  | ZodError issues =>
      return_ (Response_json
                 (VObj (<["error" := VStr "Validation error"]>
                        {[ "issues" := VArr issues ]}))
                 {| init_status := Some 400; init_headers := ∅ |})
  | HttpError st message => return_ (httpError st message)
  | _ =>
      emit (EvLog e) ;;
      return_ (httpError 500 "Internal server error")
  end.

(** Lines 148-231: the [try] statement. *)
Definition tryStatement (fn : FnCtx -> Res Response)
    (schemas : option Schemas) (req : Request) (ctx : RouteContext)
    (handleResourcePermission : value -> Res unit) (authData : value)
  : M Response :=
  tryCatch
    (paramsValue ← paramsStep schemas ctx;
     queryValue ← queryStep schemas req;
     bodyValue ← bodyStep schemas req;
     response ←
       (emit EvUserLogic ;;
        lift (fn {| fn_req := req;
                    fn_params := paramsValue;
                    fn_query := queryValue;
                    fn_body := bodyValue;
                    handleResourcePermission := handleResourcePermission;
                    fn_authData := authData |}));
     return_ response)
    catchStep.

Definition handleRoute (fn : FnCtx -> Res Response)
    (schemas : option Schemas) (guard : option Guard) : RouteHandler :=
  fun req ctx =>
    async (
      '(handleResourcePermission, authData) ← guardStep guard req;
      tryStatement fn schemas req ctx handleResourcePermission authData).

End Handler.

(** ** The query schemas *)

Module Schemas.



(** The schemas are built with the validation engine, which is not part of
    the library.  Its combinators are modelled by what they accept; the
    issues they report are not told apart.  The primitives of the engine and
    of the platform are parameters. *)
Section Zod.

(** The check of [z.string().datetime()]. *)
Variable isDatetime : string -> bool.
(** [new Date(s).getTime()], [None] for an invalid date. *)
Variable DateParse : string -> option Z.
(** [Number(v)] when it is an integer, [None] otherwise. *)
Variable NumberInt : value -> option Z.
(** How an intersection merges the two parsed values, if it can. *)
Variable mergeValues : value -> value -> option value.

Definition issue (message : string) : value :=
  VObj {[ "message" := VStr message ]}.

(** [z.coerce.number().int().min(lo).max(hi).default(d)] *)
Definition coerceInt (lo : Z) (hi : option Z) (d : Z) : Schema := fun v =>
  match v with
  | VUndefined => Success (VNum d)
  | _ =>
      match NumberInt v with
      | Some n =>
          if (lo <=? n) && (match hi with Some h => n <=? h | None => true end)
          then Success (VNum n)
          else Failure [issue "Number out of range"]
      | None => Failure [issue "Expected an integer"]
      end
  end.

(** [z.string().datetime().optional()] *)
Definition optionalDatetime : Schema := fun v =>
  match v with
  | VUndefined => Success VUndefined
  | VStr s =>
      if isDatetime s then Success (VStr s)
      else Failure [issue "Invalid datetime"]
  | _ => Failure [issue "Expected string"]
  end.

(** The fields of an object schema, parsed one by one: the parsed fields
    that are not [undefined], or the issues of the fields that failed. *)
Fixpoint parseFields (shape : list (string * Schema)) (m : gmap string value)
  : gmap string value + list value :=
  match shape with
  | [] => inl ∅
  | (k, s) :: rest =>
      match s (default VUndefined (m !! k)), parseFields rest m with
      | Success VUndefined, inl out => inl out
      | Success d, inl out => inl (<[k := d]> out)
      | Success _, inr issues => inr issues
      | Failure i, inl _ => inr i
      | Failure i, inr issues => inr (i ++ issues)%list
      end
  end.

(** [z.object(shape)]; keys outside the shape are dropped. *)
Definition z_object (shape : list (string * Schema)) : Schema := fun v =>
  match v with
  | VObj m =>
      match parseFields shape m with
      | inl out => Success (VObj out)
      | inr issues => Failure issues
      end
  | _ => Failure [issue "Expected object"]
  end.

(** [schema.refine(check, { message })] *)
Definition refine (schema : Schema) (check : value -> bool) (message : string)
  : Schema := fun v =>
  match schema v with
  | Success d => if check d then Success d else Failure [issue message]
  | Failure issues => Failure issues
  end.

(** [a.and(b)] *)
Definition and_ (a b : Schema) : Schema := fun v =>
  match a v, b v with
  | Success x, Success y =>
      match mergeValues x y with
      | Some merged => Success merged
      | None => Failure [issue "Intersection results could not be merged"]
      end
  | Failure i, Success _ => Failure i
  | Success _, Failure j => Failure j
  | Failure i, Failure j => Failure (i ++ j)%list
  end.

Definition QuerySchema : Schema :=
  z_object
    [ ("page", coerceInt 1 None 1);
      ("limit", coerceInt 1 (Some 1000) 25);
      ("updated_after", optionalDatetime);
      ("updated_before", optionalDatetime) ].

(** [!v] is [negb (truthy v)]. *)
Definition truthy (v : value) : bool :=
  match v with
  | VUndefined | VNull => false
  | VBool b => b
  | VNum n => negb (n =? 0)
  | VStr s => negb (String.eqb s "")
  | VArr _ | VObj _ => true
  end.

(** [q.k] *)
Definition prop (q : value) (k : string) : value :=
  match q with
  | VObj m => default VUndefined (m !! k)
  | _ => VUndefined
  end.

(** [new Date(v)], as its time value; the refinement applies it to the
    strings of a parsed query only. *)
Definition newDate (v : value) : option Z :=
  match v with
  | VStr s => DateParse s
  | _ => None
  end.

(** [a <= b] on dates: false when either is invalid. *)
Definition dateLe (a b : option Z) : bool :=
  match a, b with
  | Some x, Some y => x <=? y
  | _, _ => false
  end.

(** The predicate of the refinement. *)
Definition crossFieldCheck (q : value) : bool :=
  negb (truthy (prop q "updated_after")) ||
  negb (truthy (prop q "updated_before")) ||
  dateLe (newDate (prop q "updated_after")) (newDate (prop q "updated_before")).

Definition DefaultQuerySchemaRefined : Schema :=
  refine QuerySchema crossFieldCheck
    "'updated_after' must be <= 'updated_before'".

Definition withDefaultQuerySchema (schema : Schema) : Schema :=
  and_ schema DefaultQuerySchemaRefined.

End Zod.

End Schemas.

(** ** The identifier schemas *)

Module IdSchemas.
Import Schemas.

Section Zod.

(** [Number(v)] when it is an integer, [None] otherwise. *)
Variable NumberInt : value -> option Z.





End Zod.

End IdSchemas.

(** * The vocabulary of the statements *)

Module Spec.
Import Responses GuardEngine Handler.

(** The body of [httpDeleted(data)], as a map. *)
Definition deletedBody (data : value) : gmap string value :=
  spread {[ "deleted" := VBool true ]} (ownProps (nullish data (VObj ∅))).





(** The user's function, made to see the callback that does nothing. *)
Definition withNoop (fn : FnCtx -> Res Response) : FnCtx -> Res Response :=
  fun c =>
    fn {| fn_req := fn_req c;
          fn_params := fn_params c;
          fn_query := fn_query c;
          fn_body := fn_body c;
          handleResourcePermission := fun _ => Ok tt;
          fn_authData := fn_authData c |}.

(** The user's function, made to call the callback on [resource] first. *)
Definition checkingFirst (resource : value) (fn : FnCtx -> Res Response)
  : FnCtx -> Res Response :=
  fun c =>
    match handleResourcePermission c resource with
    | Ok _ => fn c
    | Throw e => Throw e
    end.



(** The 400 response of [validateWithSchema] for a query. *)
Definition invalidQuery (issues : list value) : Response :=
  Response_json
    (VObj (<["error" := VStr "Invalid query"]> {[ "issues" := VArr issues ]}))
    {| init_status := Some 400; init_headers := ∅ |}.

End Spec.

(** * Sample guards, requests and schemas *)

Module Samples.
Import Responses GuardEngine Handler.

(** A basic check that accepts everybody, and a resource-scoped check that
    looks at its ownership flag. *)
Definition anyone : Permission :=
  {| arity := 1; call := fun _ => Ok true |}.

Definition ownerOnly : Permission :=
  {| arity := 2;
     call := fun args =>
       match args with
       | [_; VObj r] =>
           Ok (match r !! "owner" with Some (VBool b) => b | _ => false end)
       | _ => Throw (OtherError "TypeError: cannot read properties of undefined")
       end |}.

Definition sampleOptions : InitGuardOptions :=
  {| guardChecks := <["loggedIn" := anyone]> {[ "canEdit" := ownerOnly ]};
     auth := fun _ => Ok (VStr "alice") |}.

Definition sampleRequest : Request :=
  {| searchParams := [];
     contentTypeHeader := None;
     json := Ok VNull;
     formData := Throw (OtherError "TypeError: not a form") |}.

(** A guard whose authentication rejects the request by throwing. *)
Definition rejectingOptions : InitGuardOptions :=
  {| guardChecks := {[ "loggedIn" := anyone ]};
     auth := fun _ => Throw (Unauthorized None) |}.

Definition nobody : Permission :=
  {| arity := 1; call := fun _ => Ok false |}.

Definition closedOptions : InitGuardOptions :=
  {| guardChecks := {[ "adminOnly" := nobody ]};
     auth := fun _ => Ok (VStr "alice") |}.




(** Sample primitives: two timestamps a month apart. *)
Definition sampleIsDatetime (s : string) : bool := negb (String.eqb s "").

Definition sampleDateParse (s : string) : option Z :=
  if String.eqb s "2024-01-01T00:00:00Z" then Some 1704067200000
  else if String.eqb s "2024-02-01T00:00:00Z" then Some 1706745600000
  else None.

Definition sampleNumberInt (v : value) : option Z :=
  match v with
  | VNum n => Some n
  | _ => None
  end.

Definition sampleMerge (a b : value) : option value :=
  match a, b with
  | VObj x, VObj y => Some (VObj (x ∪ y))
  | _, _ => None
  end.

Definition backwardsQuery : gmap string value :=
  <["updated_after" := VStr "2024-02-01T00:00:00Z"]>
    {[ "updated_before" := VStr "2024-01-01T00:00:00Z" ]}.

End Samples.

(** * Further vocabulary *)

Module Spec2.
Import Responses GuardEngine Handler.

(** The fields that [httpOkPage] writes before the caller's [extra]. *)
Definition pageField (data : list value) (i : PageInfo) (k : string)
  : option value :=
  if String.eqb k "data" then Some (VArr data)
  else if String.eqb k "page" then Some (VNum (page i))
  else if String.eqb k "pageCount" then Some (VNum (pageCount i))
  else if String.eqb k "limit" then Some (VNum (limit i))
  else if String.eqb k "total" then Some (VNum (total i))
  else if String.eqb k "hasNext" then Some (VBool (hasNext i))
  else if String.eqb k "hasPrev" then Some (VBool (hasPrev i))
  else None.

(** The characters that the fallback name replaces. *)
Definition isDelimiter (c : ascii) : bool := JS.one_of ("/\" ++ JS.dquote) c.

(** All characters of a string satisfy [p]. *)
Definition allChars (p : ascii -> bool) (s : string) : bool :=
  forallb p (list_ascii_of_string s).

(** The values of the entries of [l] under the key [k], in order. *)
Definition valuesOf {A} (k : string) (l : list (string * A)) : list A :=
  (filter (fun kv => kv.1 = k) l).*2.

(** The response that the [catch] of [handleRoute] makes of an error. *)
Definition translate (e : Exn) : Response :=
  match e with
  | ZodError issues =>
      Response_json
        (VObj (<["error" := VStr "Validation error"]>
               {[ "issues" := VArr issues ]}))
        {| init_status := Some 400; init_headers := ∅ |}
  | HttpError st message => httpError st message
  | OtherError _ => httpError 500 "Internal server error"
  end.

(** What the [catch] writes to the console. *)
Definition logOf (e : Exn) : list Event :=
  match e with
  | OtherError _ => [EvLog e]
  | _ => []
  end.

(** The 400 response of [validateWithSchema]. *)
Definition invalid (kind : Kind) (issues : list value) : Response :=
  Response_json
    (VObj (<["error" := VStr ("Invalid " ++ kindName kind)]>
           {[ "issues" := VArr issues ]}))
    {| init_status := Some 400; init_headers := ∅ |}.

(** The value that [await ctx.params] gives, or the error it throws. *)
Definition awaitedParams (ctx : RouteContext) : Res value :=
  match params ctx with
  | Some promise => promise
  | None => Ok VUndefined
  end.

(** The argument that [handleRoute] makes for the user's function. *)
Definition fnCtx (req : Request) (pv qv bv : value)
    (cb : value -> Res unit) (ad : value) : FnCtx :=
  {| fn_req := req;
     fn_params := pv;
     fn_query := qv;
     fn_body := bv;
     handleResourcePermission := cb;
     fn_authData := ad |}.

(** The callback of a resource-scoped check [p] for the caller [ad]. *)
Definition checkResource (p : Permission) (ad : value) (resource : value)
  : Res unit :=
  match call p [ad; resource] with
  | Ok true => Ok tt
  | Ok false => Throw (HttpError 403 "Forbidden")
  | Throw e => Throw e
  end.

(** The user's function, made to see [ad] as the authentication data. *)
Definition withAuthData (ad : value) (fn : FnCtx -> Res Response)
  : FnCtx -> Res Response :=
  fun c =>
    fn {| fn_req := fn_req c;
          fn_params := fn_params c;
          fn_query := fn_query c;
          fn_body := fn_body c;
          handleResourcePermission := handleResourcePermission c;
          fn_authData := ad |}.

End Spec2.

(** * Further samples *)

Module Samples2.
Import Responses GuardEngine Handler.

(** A schema that rejects everything. *)
Definition rejectAll : Schema := fun _ => Failure [VStr "rejected"].

Definition strictParams : Schemas :=
  {| paramsSchema := Some rejectAll;
     querySchema := Some rejectAll;
     bodySchema := Some rejectAll |}.

Definition strictBody : Schemas :=
  {| paramsSchema := None; querySchema := None; bodySchema := Some rejectAll |}.

(** A form in which the field [tag] is given twice. *)
Definition sampleForm : list (string * value) :=
  [("tag", VStr "a"); ("name", VStr "n"); ("tag", VStr "b")].

(** A check registered with three parameters. *)
Definition misdeclared : Permission :=
  {| arity := 3; call := fun _ => Ok true |}.

Definition misdeclaredOptions : InitGuardOptions :=
  {| guardChecks := {[ "publish" := misdeclared ]};
     auth := fun _ => Ok (VStr "alice") |}.


Definition ownedByCaller : value := VObj {[ "owner" := VBool true ]}.
Definition ownedByOther : value := VObj {[ "owner" := VBool false ]}.

(** A request whose query string gives [page] twice. *)
Definition repeatedQuery : Request :=
  {| searchParams := [("page", "1"); ("limit", "10"); ("page", "3")];
     contentTypeHeader := None;
     json := Ok VNull;
     formData := Throw (OtherError "TypeError: not a form") |}.

End Samples2.

(** * Properties *)

(** ** Pagination *)

Module PageFacts.
Import Responses.
Import Spec Samples.



(** Which determines it. *)
Lemma ceil_unique (a b c d : Z) :
  0 < b ->
  (c - 1) * b < a <= c * b ->
  (d - 1) * b < a <= d * b ->
  c = d.
Proof. intros Hb Hc Hd. nia. Qed.



End PageFacts.

(** ** The range of a page *)

Module RangeFacts.
Import Schemas.
Import Spec Samples.



End RangeFacts.

(** ** httpDeleted *)

Module DeletedFacts.
Import Responses.
Import Spec Samples.

Lemma lookup_spread (a b : gmap string value) (k : string) :
  spread a b !! k =
  match b !! k with
  | Some v => Some v
  | None => a !! k
  end.
Proof.
  unfold spread. rewrite lookup_union.
  destruct (b !! k), (a !! k); reflexivity.
Qed.

Lemma httpDeleted_body (data : value) (init : option ResponseInit) :
  body (httpDeleted data init) = JsonBody (VObj (deletedBody data)).
Proof. reflexivity. Qed.

(** C3, as stated, fails: a [deleted] field of the caller replaces [true]. *)
Lemma httpDeleted_deleted_not_kept :
  ~ (forall (data : value) (m : gmap string value),
       body (httpDeleted data None) = JsonBody (VObj m) ->
       m !! "deleted" = Some (VBool true)).
Proof.
  intros H.
  specialize (H (VObj {[ "deleted" := VBool false ]}) _ eq_refl).
  rewrite lookup_spread in H.
  rewrite lookup_singleton_eq in H. discriminate H.
Qed.

(** C3, amended.  [httpDeleted(data)] has status 200 and a JSON object as
    body, which holds every field of [data] with the value [data] gives it,
    the field [deleted] with value [true] when [data] has no field of that
    name, and nothing else; with [data] omitted (or null) the body is
    exactly [{deleted: true}]. *)
Theorem httpDeleted_spec (data : value) :
  status (httpDeleted data None) = 200 /\
  (exists m, body (httpDeleted data None) = JsonBody (VObj m) /\
     (forall k v, ownProps (nullish data (VObj ∅)) !! k = Some v ->
                  m !! k = Some v) /\
     (ownProps (nullish data (VObj ∅)) !! "deleted" = None ->
      m !! "deleted" = Some (VBool true)) /\
     (forall k, k <> "deleted" ->
                m !! k = ownProps (nullish data (VObj ∅)) !! k)) /\
  (data = VUndefined \/ data = VNull ->
   body (httpDeleted data None) = JsonBody (VObj {[ "deleted" := VBool true ]})).
Proof.
  split; [reflexivity |]. split.
  - exists (deletedBody data). split; [apply httpDeleted_body |].
    unfold deletedBody. repeat split.
    + intros k v Hk. rewrite lookup_spread, Hk. reflexivity.
    + intros Hk. rewrite lookup_spread, Hk. apply lookup_singleton_eq.
    + intros k Hk. rewrite lookup_spread.
      destruct (ownProps _ !! k); [reflexivity |].
      apply lookup_singleton_ne. congruence.
  - intros [-> | ->]; rewrite httpDeleted_body; unfold deletedBody, spread;
      cbn [nullish ownProps]; rewrite (left_id_L ∅ (∪)); reflexivity.
Qed.

End DeletedFacts.

(** ** Content-Disposition *)

Module DownloadFacts.
Import Responses.
Import Spec Samples.

#[local] Arguments String.append : simpl nomatch.
















Lemma forallb_app_string (p : ascii -> bool) (a b : string) :
  forallb p (list_ascii_of_string (a ++ b)) =
  forallb p (list_ascii_of_string a) && forallb p (list_ascii_of_string b).
Proof. induction a as [| c a IH]; cbn; [reflexivity | now rewrite IH, andb_assoc]. Qed.









End DownloadFacts.

(** ** The guard engine *)

Module GuardFacts.
Import GuardEngine.
Import Spec Samples.

Lemma initGuards_lookup (options : InitGuardOptions) (act : string) :
  initGuards options !! act =
  (fun _ => {| action := act;
               permissionHandlerGenerator := _permissionHandlerGenerator options |})
  <$> guardChecks options !! act.
Proof.
  unfold initGuards. rewrite map_lookup_imap.
  destruct (guardChecks options !! act); reflexivity.
Qed.

Lemma generator_ok (options : InitGuardOptions) (act : string) (req : Request)
    (ad : value) (p : Permission) :
  auth options req = Ok ad ->
  guardChecks options !! act = Some p ->
  exists ph,
    _permissionHandlerGenerator options act req = Ok ph /\
    needResource ph = Nat.eqb (arity p) 2 /\
    authData ph = ad /\
    forall resource,
      handler ph resource =
      if Nat.eqb (arity p) 1 then call p [ad]
      else if Nat.eqb (arity p) 2 then call p [ad; default VUndefined resource]
      else Ok false.
Proof.
  intros Ha Hp. unfold _permissionHandlerGenerator. rewrite Ha, Hp.
  eexists. split; [reflexivity |]. cbn. auto.
Qed.

(** C2, as stated, fails: the handler of a basic check that is called with
    a resource evaluates the check, and the handler of a resource-scoped
    check that is called without one evaluates it on [undefined]. *)
Lemma handler_wrong_arity_not_false :
  ~ (forall (options : InitGuardOptions) (act : string) (req : Request)
            (p : Permission) (ph : PermissionHandler),
       guardChecks options !! act = Some p ->
       _permissionHandlerGenerator options act req = Ok ph ->
       (arity p = 2%nat -> handler ph None = Ok false) /\
       (arity p = 1%nat -> forall resource, handler ph (Some resource) = Ok false)).
Proof.
  intros H.
  destruct (generator_ok sampleOptions "loggedIn" sampleRequest (VStr "alice")
              anyone eq_refl eq_refl) as (ph & Hph & _ & _ & Hh).
  destruct (H sampleOptions "loggedIn" sampleRequest anyone ph eq_refl Hph)
    as [_ H1].
  specialize (H1 eq_refl VNull). rewrite Hh in H1. cbn in H1. discriminate H1.
Qed.

(** C2, amended.  The handler of a guard made by [initGuards] looks only at
    the declared number of parameters of the registered check, not at how
    it is called itself: a check with one parameter is evaluated on the
    authentication data whether or not a resource is passed; a check with
    two parameters is evaluated on the authentication data and the resource,
    which is [undefined] when none is passed; and only for a check with any
    other number of parameters does the handler return false without
    evaluating the check. *)
Theorem handler_dispatch (options : InitGuardOptions) (act : string)
    (g : Guard) (req : Request) (ad : value) :
  initGuards options !! act = Some g ->
  auth options req = Ok ad ->
  exists p ph,
    guardChecks options !! act = Some p /\
    permissionHandlerGenerator g (action g) req = Ok ph /\
    needResource ph = Nat.eqb (arity p) 2 /\
    (arity p = 1%nat -> forall resource, handler ph resource = call p [ad]) /\
    (arity p = 2%nat ->
       handler ph None = call p [ad; VUndefined] /\
       forall resource, handler ph (Some resource) = call p [ad; resource]) /\
    (arity p <> 1%nat -> arity p <> 2%nat ->
       forall resource, handler ph resource = Ok false).
Proof.
  intros Hg Ha. rewrite initGuards_lookup in Hg.
  destruct (guardChecks options !! act) as [p |] eqn:Hp; [| discriminate Hg].
  injection Hg as <-. cbn [action permissionHandlerGenerator].
  destruct (generator_ok options act req ad p Ha Hp) as (ph & Hph & Hn & _ & Hh).
  exists p, ph. split; [reflexivity |]. split; [exact Hph |].
  split; [exact Hn |]. split; [| split].
  - intros E r. rewrite Hh, E. reflexivity.
  - intros E. split; [| intros r]; rewrite Hh, E; reflexivity.
  - intros N1 N2 r. rewrite Hh.
    destruct (Nat.eqb_spec (arity p) 1); [contradiction |].
    destruct (Nat.eqb_spec (arity p) 2); [contradiction |]. reflexivity.
Qed.

Lemma handler_dispatch_witness :
  exists g,
    initGuards sampleOptions !! "canEdit" = Some g /\
    exists ph,
      permissionHandlerGenerator g (action g) sampleRequest = Ok ph /\
      handler ph None =
      Throw (OtherError "TypeError: cannot read properties of undefined").
Proof.
  eexists. split; [reflexivity |].
  destruct (handler_dispatch sampleOptions "canEdit" _ sampleRequest
              (VStr "alice") eq_refl eq_refl)
    as (p & ph & Hp & Hph & _ & _ & H2 & _).
  exists ph. split; [exact Hph |].
  assert (guardChecks sampleOptions !! "canEdit" = Some ownerOnly) as Hp'
    by reflexivity.
  rewrite Hp' in Hp. injection Hp as <-.
  destruct (H2 eq_refl) as [-> _]. reflexivity.
Defined.

End GuardFacts.

(** ** The pipeline *)

Module PipelineFacts.
Import Responses GuardEngine Handler.
Import Spec Samples.

(** Unfolding of the monad on completed prefixes. *)
Lemma bind_normal {A B} (t : list Event) (a : A) (f : A -> M B) :
  mbind f ((t, Normal a) : M A) = ((t ++ (f a).1)%list, (f a).2).
Proof. unfold mbind, M_bind. destruct (f a). reflexivity. Qed.

Lemma bind_return {A B} (t : list Event) (r : Response) (f : A -> M B) :
  mbind f ((t, Return r) : M A) = (t, Return r).
Proof. reflexivity. Qed.

Lemma bind_thrown {A B} (t : list Event) (e : Exn) (f : A -> M B) :
  mbind f ((t, Thrown e) : M A) = (t, Thrown e).
Proof. reflexivity. Qed.



Lemma handleRoute_unfold fn schemas guard req ctx :
  handleRoute fn schemas guard req ctx =
  async ('(cb, ad) ← guardStep guard req; tryStatement fn schemas req ctx cb ad).
Proof. reflexivity. Qed.

Lemma handleRoute_admitted fn schemas guard req ctx t cb ad :
  guardStep guard req = (t, Normal (cb, ad)) ->
  handleRoute fn schemas guard req ctx =
  ((t ++ (async (tryStatement fn schemas req ctx cb ad)).1)%list,
   (async (tryStatement fn schemas req ctx cb ad)).2).
Proof.
  intros H. rewrite handleRoute_unfold, H, bind_normal. cbn beta iota.
  destruct (tryStatement fn schemas req ctx cb ad) as [t' [a | e | r]];
    reflexivity.
Qed.



(** An error of the generator leaves the handler as it is. *)
Lemma handleRoute_generator_throws fn schemas g req ctx e :
  permissionHandlerGenerator g (action g) req = Throw e ->
  handleRoute fn schemas (Some g) req ctx = ([EvGuard], Throw e).
Proof.
  intros H. rewrite handleRoute_unfold. unfold guardStep. rewrite H. reflexivity.
Qed.


Lemma guardStep_denied g req ph :
  permissionHandlerGenerator g (action g) req = Ok ph ->
  needResource ph = false ->
  handler ph None = Ok false ->
  guardStep (Some g) req = ([EvGuard; EvCheck], Return (httpError 403 "Forbidden")).
Proof.
  intros H Hn Hh. unfold guardStep. rewrite H. cbn. rewrite Hn. cbn.
  rewrite Hh. reflexivity.
Qed.

Lemma guardStep_passed g req ph :
  permissionHandlerGenerator g (action g) req = Ok ph ->
  needResource ph = false ->
  handler ph None = Ok true ->
  guardStep (Some g) req =
  ([EvGuard; EvCheck], Normal (fun _ => Ok tt, GuardEngine.authData ph)).
Proof.
  intros H Hn Hh. unfold guardStep. rewrite H. cbn. rewrite Hn. cbn.
  rewrite Hh. reflexivity.
Qed.

(** A [return] in the query or in the body step is the answer. *)
Lemma handleRoute_query_returns fn schemas guard req ctx t1 cb ad t2 pv t3 r :
  guardStep guard req = (t1, Normal (cb, ad)) ->
  paramsStep schemas ctx = (t2, Normal pv) ->
  queryStep schemas req = (t3, Return r) ->
  handleRoute fn schemas guard req ctx = ((t1 ++ t2 ++ t3)%list, Ok r).
Proof.
  intros Hg Hp Hq. rewrite (handleRoute_admitted _ _ _ _ _ _ _ _ Hg).
  unfold tryStatement. rewrite Hp, bind_normal, Hq. reflexivity.
Qed.


End PipelineFacts.

(** *** Errors of the guard *)

Module GuardErrors.
Import Responses GuardEngine Handler PipelineFacts.
Import Spec Samples.

(** C1 does not hold of the code.  The guard is evaluated before the [try]
    statement: when the authentication function of the guard throws
    [Unauthorized], the promise of the handler is rejected with that error
    instead of being resolved with a 401 response.  The same error thrown by
    the user's function, inside the [try] statement, is answered 401. *)
Theorem auth_error_escapes :
  (exists g,
     initGuards rejectingOptions !! "loggedIn" = Some g /\
     forall fn schemas ctx,
       handleRoute fn schemas (Some g) sampleRequest ctx =
       ([EvGuard], Throw (HttpError 401 "Unauthorized"))) /\
  handleRoute (fun _ => Throw (Unauthorized None)) None None
    sampleRequest {| params := None |} =
  ([EvAwaitParams; EvUserLogic], Ok (httpError 401 "Unauthorized")).
Proof.
  split; [| reflexivity].
  eexists. split; [reflexivity |].
  intros fn schemas ctx. apply handleRoute_generator_throws. reflexivity.
Qed.

End GuardErrors.

(** *** Denied before validation *)

Module DeniedFacts.
Import Responses GuardEngine Handler PipelineFacts.
Import Spec Samples.

(** C5.  On a route guarded by a basic check (one parameter) that returns
    false for the authenticated caller, the handler answers 403 with the
    message Forbidden, and the guard and its check are all that ran: no
    parameters were awaited, nothing was validated, no body was read and the
    user's function was not called. *)
Theorem basic_guard_denied_before_validation
    (options : InitGuardOptions) (act : string) (p : Permission) (ad : value)
    (fn : FnCtx -> Res Response) (schemas : option Schemas)
    (req : Request) (ctx : RouteContext) :
  guardChecks options !! act = Some p ->
  arity p = 1%nat ->
  auth options req = Ok ad ->
  call p [ad] = Ok false ->
  exists g,
    initGuards options !! act = Some g /\
    handleRoute fn schemas (Some g) req ctx =
      ([EvGuard; EvCheck], Ok (httpError 403 "Forbidden")) /\
    status (httpError 403 "Forbidden") = 403 /\
    body (httpError 403 "Forbidden") =
      JsonBody (VObj {[ "error" := VObj {[ "message" := VStr "Forbidden" ]} ]}) /\
    (forall k, EvValidate k ∉ (handleRoute fn schemas (Some g) req ctx).1) /\
    EvUserLogic ∉ (handleRoute fn schemas (Some g) req ctx).1.
Proof.
  intros Hp Har Hauth Hcall.
  destruct (GuardFacts.generator_ok options act req ad p Hauth Hp)
    as (ph & Hph & Hn & _ & Hh).
  eexists. split.
  { rewrite GuardFacts.initGuards_lookup, Hp. reflexivity. }
  assert (handleRoute fn schemas
            (Some {| action := act;
                     permissionHandlerGenerator :=
                       _permissionHandlerGenerator options |}) req ctx =
          ([EvGuard; EvCheck], Ok (httpError 403 "Forbidden"))) as E.
  { rewrite handleRoute_unfold.
    rewrite (guardStep_denied _ req ph); [reflexivity | exact Hph | |].
    - rewrite Hn, Har. reflexivity.
    - rewrite Hh, Har. exact Hcall. }
  rewrite E. cbn [fst].
  split; [reflexivity |]. split; [reflexivity |]. split; [reflexivity |].
  split.
  - intros k Hin. apply list_elem_of_In in Hin. cbn in Hin.
    destruct Hin as [H | [H | []]]; discriminate H.
  - intros Hin. apply list_elem_of_In in Hin. cbn in Hin.
    destruct Hin as [H | [H | []]]; discriminate H.
Qed.

Lemma basic_guard_denied_before_validation_witness :
  exists g,
    initGuards closedOptions !! "adminOnly" = Some g /\
    handleRoute (fun _ => Ok (httpOk VNull None)) None (Some g)
      sampleRequest {| params := None |} =
    ([EvGuard; EvCheck], Ok (httpError 403 "Forbidden")).
Proof.
  destruct (basic_guard_denied_before_validation closedOptions "adminOnly"
              nobody (VStr "alice") (fun _ => Ok (httpOk VNull None)) None
              sampleRequest {| params := None |}
              eq_refl eq_refl eq_refl eq_refl)
    as (g & Hg & Hrun & _).
  exists g. split; [exact Hg | exact Hrun].
Defined.

End DeniedFacts.

(** *** The callback of unguarded and of passed routes *)

Module CallbackFacts.
Import Responses GuardEngine Handler PipelineFacts.
Import Spec Samples.

Lemma tryStatement_noop fn schemas req ctx ad :
  tryStatement fn schemas req ctx (fun _ => Ok tt) ad =
  tryStatement (withNoop fn) schemas req ctx (fun _ => Ok tt) ad.
Proof. reflexivity. Qed.

Lemma tryStatement_checkingFirst resource fn schemas req ctx ad :
  tryStatement (checkingFirst resource fn) schemas req ctx (fun _ => Ok tt) ad =
  tryStatement fn schemas req ctx (fun _ => Ok tt) ad.
Proof. reflexivity. Qed.

(** C10.  When the route has no guard, or its guard has a check that needs
    no resource and that passes, the callback that the guard step yields,
    the one the handler gives to the user's function, returns normally on
    every resource.  The user's function cannot tell it from a function
    that does nothing, and calling it changes nothing in the answer. *)
Theorem handleResourcePermission_noop
    (fn : FnCtx -> Res Response) (schemas : option Schemas)
    (guard : option Guard) (req : Request) (ctx : RouteContext) :
  (guard = None \/
   exists g ph,
     guard = Some g /\
     permissionHandlerGenerator g (action g) req = Ok ph /\
     needResource ph = false /\
     handler ph None = Ok true) ->
  (exists t cb ad,
     guardStep guard req = (t, Normal (cb, ad)) /\
     forall resource, cb resource = Ok tt) /\
  handleRoute fn schemas guard req ctx =
    handleRoute (withNoop fn) schemas guard req ctx /\
  forall resource,
    handleRoute (checkingFirst resource fn) schemas guard req ctx =
    handleRoute fn schemas guard req ctx.
Proof.
  intros H.
  assert (exists t ad, guardStep guard req = (t, Normal (fun _ => Ok tt, ad)))
    as (t & ad & Hg).
  { destruct H as [-> | (g & ph & -> & Hph & Hn & Hh)].
    - eexists _, _. reflexivity.
    - eexists _, _. apply (guardStep_passed g req ph Hph Hn Hh). }
  split; [| split].
  - exists t, (fun _ => Ok tt), ad. split; [exact Hg | reflexivity].
  - rewrite !(handleRoute_admitted _ _ _ _ _ _ _ _ Hg).
    rewrite <- tryStatement_noop. reflexivity.
  - intros resource. rewrite !(handleRoute_admitted _ _ _ _ _ _ _ _ Hg).
    rewrite tryStatement_checkingFirst. reflexivity.
Qed.

Lemma handleResourcePermission_noop_witness :
  handleRoute
    (checkingFirst VNull (fun _ => Ok (httpOk (VStr "done") None)))
    None None sampleRequest {| params := None |} =
  ([EvAwaitParams; EvUserLogic], Ok (httpOk (VStr "done") None)).
Proof.
  destruct (handleResourcePermission_noop
              (fun _ => Ok (httpOk (VStr "done") None)) None None
              sampleRequest {| params := None |}
              (or_introl eq_refl)) as (_ & _ & H).
  rewrite (H VNull). reflexivity.
Defined.

End CallbackFacts.

(** *** The body, by content type *)

Module BodyFacts.
Import Responses GuardEngine Handler PipelineFacts.
Import Spec Samples.






End BodyFacts.

(** ** The default query schema *)

Module QueryFacts.
Import Responses GuardEngine Handler Schemas PipelineFacts.
Import Spec Samples.

Section Zod.

Variable isDatetime : string -> bool.
Variable DateParse : string -> option Z.
Variable NumberInt : value -> option Z.
Variable mergeValues : value -> value -> option value.

#[local] Abbreviation QuerySchema := (Schemas.QuerySchema isDatetime NumberInt).
#[local] Abbreviation DefaultQuerySchemaRefined :=
  (Schemas.DefaultQuerySchemaRefined isDatetime DateParse NumberInt).
#[local] Abbreviation withDefaultQuerySchema :=
  (Schemas.withDefaultQuerySchema isDatetime DateParse NumberInt mergeValues).
#[local] Abbreviation crossFieldCheck := (Schemas.crossFieldCheck DateParse).

(** An object schema yields no key outside its shape. *)
Lemma parseFields_keys shape (m out : gmap string value) (k : string) :
  parseFields shape m = inl out ->
  k ∉ shape.*1 ->
  out !! k = None.
Proof.
  revert out. induction shape as [| [k' s] rest IH]; intros out H Hk.
  - injection H as <-. apply lookup_empty.
  - cbn [parseFields] in H. cbn in Hk.
    apply not_elem_of_cons in Hk as [Hne Hk].
    destruct (parseFields rest m) as [out' |];
      [| destruct (s _) as [[]|]; discriminate H].
    specialize (IH out' eq_refl Hk).
    destruct (s _) as [d |]; [| discriminate H].
    destruct d; injection H as <-; try exact IH;
      rewrite lookup_insert_ne by congruence; exact IH.
Qed.

(** When an object schema succeeds, each of its fields has succeeded on the
    property of that name, and the result holds what the field gave. *)
Lemma parseFields_field shape (m out : gmap string value) (k : string) (s : Schema) :
  NoDup shape.*1 ->
  parseFields shape m = inl out ->
  (k, s) ∈ shape ->
  s (default VUndefined (m !! k)) = Success (default VUndefined (out !! k)).
Proof.
  revert out. induction shape as [| [k' s'] rest IH]; intros out Hnd H Hin.
  - inversion Hin.
  - cbn in Hnd. apply NoDup_cons in Hnd as [Hk' Hnd].
    cbn [parseFields] in H.
    destruct (parseFields rest m) as [out' |] eqn:Hrest;
      [| destruct (s' _) as [[]|]; discriminate H].
    destruct (s' (default VUndefined (m !! k'))) as [d |] eqn:Hs';
      [| discriminate H].
    apply elem_of_cons in Hin as [Heq | Hin].
    + injection Heq as -> ->. rewrite Hs'.
      pose proof (parseFields_keys _ _ _ _ Hrest Hk') as Hnone.
      destruct d; injection H as <-;
        rewrite ?lookup_insert_eq, ?Hnone; reflexivity.
    + assert (k <> k') as Hne.
      { intros ->. apply Hk'. apply list_elem_of_fmap. exists (k', s). auto. }
      rewrite (IH out' Hnd eq_refl Hin).
      destruct d; injection H as <-;
        rewrite ?lookup_insert_ne by congruence; reflexivity.
Qed.

Lemma optionalDatetime_field (m out : gmap string value) (k : string) :
  optionalDatetime isDatetime (default VUndefined (m !! k)) =
    Success (default VUndefined (out !! k)) ->
  match m !! k with
  | None => default VUndefined (out !! k) = VUndefined
  | Some (VStr a) => default VUndefined (out !! k) = VStr a /\ isDatetime a = true
  | Some _ => True
  end.
Proof.
  destruct (m !! k) as [[] |]; cbn; try (intros; exact I).
  - destruct (isDatetime s); intros H; [| discriminate H].
    injection H as <-. auto.
  - intros H. injection H as <-. reflexivity.
Qed.

(** What a parsed query holds of the two timestamps. *)
Lemma QuerySchema_timestamps (m : gmap string value) (d : value) :
  QuerySchema (VObj m) = Success d ->
  forall k, k = "updated_after" \/ k = "updated_before" ->
  match m !! k with
  | None => prop d k = VUndefined
  | Some (VStr a) => prop d k = VStr a /\ isDatetime a = true
  | Some _ => True
  end.
Proof.
  unfold Schemas.QuerySchema, z_object.
  destruct (parseFields _ m) as [out |] eqn:Hp; [| discriminate].
  intros H k Hk. injection H as <-. cbn [prop].
  apply optionalDatetime_field.
  apply (parseFields_field _ m out k (optionalDatetime isDatetime)) in Hp;
    [exact Hp | |].
  - cbn. apply NoDup_ListNoDup.
    repeat (constructor; [cbn; intuition discriminate |]). constructor.
  - destruct Hk as [-> | ->];
      repeat first [apply list_elem_of_here | apply list_elem_of_further].
Qed.

(** The refinement rejects a parsed query whose first timestamp is later
    than the second. *)
Lemma DefaultQuerySchemaRefined_later (m : gmap string value)
    (a b : string) (ta tb : Z) :
  isDatetime "" = false ->
  m !! "updated_after" = Some (VStr a) ->
  m !! "updated_before" = Some (VStr b) ->
  DateParse a = Some ta ->
  DateParse b = Some tb ->
  tb < ta ->
  exists issues, DefaultQuerySchemaRefined (VObj m) = Failure issues.
Proof.
  intros He Ha Hb Hta Htb Hlt. unfold Schemas.DefaultQuerySchemaRefined, refine.
  destruct (QuerySchema (VObj m)) as [d | issues] eqn:Hq; [| eauto].
  pose proof (QuerySchema_timestamps m d Hq "updated_after" (or_introl eq_refl)) as H1.
  pose proof (QuerySchema_timestamps m d Hq "updated_before" (or_intror eq_refl)) as H2.
  rewrite Ha in H1. rewrite Hb in H2. destruct H1 as [H1 Da], H2 as [H2 Db].
  unfold Schemas.crossFieldCheck. rewrite H1, H2. cbn [truthy newDate].
  rewrite Hta, Htb. cbn [dateLe].
  assert (String.eqb a "" = false) as ->
    by (apply String.eqb_neq; intros ->; congruence).
  assert (String.eqb b "" = false) as ->
    by (apply String.eqb_neq; intros ->; congruence).
  destruct (Z.leb_spec ta tb); [lia |]. cbn. eauto.
Qed.

(** It accepts one in which a timestamp is missing or the two are in
    order. *)
Lemma DefaultQuerySchemaRefined_ordered (m : gmap string value) :
  m !! "updated_after" = None \/
  m !! "updated_before" = None \/
  (exists a b ta tb,
     m !! "updated_after" = Some (VStr a) /\
     m !! "updated_before" = Some (VStr b) /\
     DateParse a = Some ta /\ DateParse b = Some tb /\ ta <= tb) ->
  DefaultQuerySchemaRefined (VObj m) = QuerySchema (VObj m) /\
  forall d, QuerySchema (VObj m) = Success d -> crossFieldCheck d = true.
Proof.
  intros H.
  assert (forall d, QuerySchema (VObj m) = Success d -> crossFieldCheck d = true)
    as Hc.
  { intros d Hq.
    pose proof (QuerySchema_timestamps m d Hq "updated_after" (or_introl eq_refl)) as H1.
    pose proof (QuerySchema_timestamps m d Hq "updated_before" (or_intror eq_refl)) as H2.
    unfold Schemas.crossFieldCheck.
    destruct H as [E | [E | (a & b & ta & tb & Ea & Eb & Hta & Htb & Hle)]].
    - rewrite E in H1. rewrite H1. reflexivity.
    - rewrite E in H2. rewrite H2. cbn [truthy negb]. apply orb_true_iff.
      left. apply orb_true_r.
    - rewrite Ea in H1. rewrite Eb in H2. destruct H1 as [-> _], H2 as [-> _].
      cbn [newDate]. rewrite Hta, Htb. cbn [dateLe].
      destruct (Z.leb_spec ta tb); [apply orb_true_r | lia]. }
  split; [| exact Hc].
  unfold Schemas.DefaultQuerySchemaRefined, refine.
  destruct (QuerySchema (VObj m)) as [d |] eqn:Hq; [| reflexivity].
  rewrite (Hc d eq_refl). reflexivity.
Qed.

Lemma and_fails_right (a b : Schema) (v : value) (issues : list value) :
  b v = Failure issues ->
  exists issues', and_ mergeValues a b v = Failure issues'.
Proof. intros H. unfold and_. rewrite H. destruct (a v); eauto. Qed.

(** C8.  Let a query schema be built with [withDefaultQuerySchema] from any
    schema [S].  A query in which [updated_after] and [updated_before] are
    both given and the first is a later time than the second fails
    validation, and a request with that query, once past the guard and the
    parameters, is answered 400 (Invalid query) without the user's function
    being called.  When one of the two is not given, or the first is not
    later than the second, the cross-field check holds of the parsed query
    and the refinement adds nothing to the result of the base schema. *)
Theorem later_after_rejected (S : Schema) (m : gmap string value) :
  isDatetime "" = false ->
  (forall a b ta tb,
     m !! "updated_after" = Some (VStr a) ->
     m !! "updated_before" = Some (VStr b) ->
     DateParse a = Some ta ->
     DateParse b = Some tb ->
     tb < ta ->
     exists issues,
       withDefaultQuerySchema S (VObj m) = Failure issues /\
       validateWithSchema (withDefaultQuerySchema S) (VObj m) Query =
         inr (invalidQuery issues) /\
       status (invalidQuery issues) = 400 /\
       forall fn schemas guard req ctx t1 cb ad t2 pv,
         querySchema schemas = Some (withDefaultQuerySchema S) ->
         fromEntries (prod_map id VStr <$> searchParams req) = m ->
         guardStep guard req = (t1, Normal (cb, ad)) ->
         paramsStep (Some schemas) ctx = (t2, Normal pv) ->
         handleRoute fn (Some schemas) guard req ctx =
           ((t1 ++ t2 ++ [EvValidate Query])%list, Ok (invalidQuery issues))) /\
  (m !! "updated_after" = None \/
   m !! "updated_before" = None \/
   (exists a b ta tb,
      m !! "updated_after" = Some (VStr a) /\
      m !! "updated_before" = Some (VStr b) /\
      DateParse a = Some ta /\ DateParse b = Some tb /\ ta <= tb) ->
   DefaultQuerySchemaRefined (VObj m) = QuerySchema (VObj m) /\
   forall d, QuerySchema (VObj m) = Success d -> crossFieldCheck d = true).
Proof.
  intros He. split; [| apply DefaultQuerySchemaRefined_ordered].
  intros a b ta tb Ha Hb Hta Htb Hlt.
  destruct (DefaultQuerySchemaRefined_later m a b ta tb He Ha Hb Hta Htb Hlt)
    as (i0 & Hi0).
  destruct (and_fails_right S DefaultQuerySchemaRefined (VObj m) i0 Hi0)
    as (issues & Hi).
  exists issues.
  assert (validateWithSchema (withDefaultQuerySchema S) (VObj m) Query =
          inr (invalidQuery issues)) as Hv.
  { unfold validateWithSchema, Schemas.withDefaultQuerySchema. rewrite Hi.
    reflexivity. }
  split; [exact Hi |]. split; [exact Hv |]. split; [reflexivity |].
  intros fn schemas guard req ctx t1 cb ad t2 pv Hs Hm Hg Hp.
  apply (handleRoute_query_returns fn (Some schemas) guard req ctx
           t1 cb ad t2 pv _ _ Hg Hp).
  unfold queryStep. cbn [schemaOf mbind option_bind]. rewrite Hs, Hm.
  unfold validated. rewrite Hv. reflexivity.
Qed.

End Zod.

Lemma later_after_rejected_witness :
  exists issues,
    Schemas.withDefaultQuerySchema sampleIsDatetime sampleDateParse
      sampleNumberInt sampleMerge (fun v => Success v) (VObj backwardsQuery)
    = Failure issues.
Proof.
  destruct (later_after_rejected sampleIsDatetime sampleDateParse
              sampleNumberInt sampleMerge (fun v => Success v) backwardsQuery
              eq_refl) as [H _].
  destruct (H "2024-02-01T00:00:00Z" "2024-01-01T00:00:00Z"
              1706745600000 1704067200000
              eq_refl eq_refl eq_refl eq_refl ltac:(lia))
    as (issues & Hi & _).
  exists issues. exact Hi.
Defined.

End QueryFacts.

(** ** Pagination and ranges together *)

Module PageRangeFacts.
Import Responses Schemas PageFacts.





End PageRangeFacts.

(** ** The response builders, further *)

Module ResponseFacts.
Import Responses DeletedFacts Spec2.



Lemma pageInfoProps_lookup (rows : list value) (i : PageInfo) (k : string) :
  spread {[ "data" := VArr rows ]} (pageInfoProps i) !! k = pageField rows i k.
Proof.
  rewrite lookup_spread. unfold pageInfoProps, pageField.
  repeat match goal with
  | |- context [String.eqb k ?s] =>
      destruct (String.eqb_spec k s) as [-> | ?]; [reflexivity |]
  end.
  rewrite !lookup_insert_ne, lookup_empty by congruence.
  apply lookup_singleton_ne. congruence.
Qed.

(** X4.  The body of [httpOkPage] is an object that holds every field of
    [extra] with the value [extra] gives it, also under the names [data],
    [page], [pageCount], [limit], [total], [hasNext] and [hasPrev]; under
    every other name it holds the rows and the page information of
    [buildPageInfo], with the limit clamped to at least 1, and nothing
    else. *)
Theorem httpOkPage_body (rows : list value) (total page limit : Z)
    (extra : value) (init : option ResponseInit) :
  exists m,
    body (httpOkPage rows total page limit extra init) = JsonBody (VObj m) /\
    (forall k v, ownProps (nullish extra (VObj ∅)) !! k = Some v ->
                 m !! k = Some v) /\
    (forall k, ownProps (nullish extra (VObj ∅)) !! k = None ->
               m !! k = pageField rows (buildPageInfo total page limit) k) /\
    ((extra = VUndefined \/ extra = VNull) ->
     m !! "limit" = Some (VNum (Z.max 1 limit)) /\
     m !! "data" = Some (VArr rows) /\
     forall k, m !! k = pageField rows (buildPageInfo total page limit) k).
Proof.
  eexists. split; [reflexivity |].
  split; [| split].
  - intros k v H. rewrite lookup_spread, H. reflexivity.
  - intros k H. rewrite lookup_spread, H. apply pageInfoProps_lookup.
  - intros He.
    assert (forall k, spread (spread {[ "data" := VArr rows ]}
                         (pageInfoProps (buildPageInfo total page limit)))
                        (ownProps (nullish extra (VObj ∅))) !! k =
                      pageField rows (buildPageInfo total page limit) k) as E.
    { intros k. rewrite lookup_spread.
      destruct He as [-> | ->]; cbn [nullish ownProps];
        rewrite lookup_empty; apply pageInfoProps_lookup. }
    split; [rewrite E; reflexivity |]. split; [rewrite E; reflexivity | exact E].
Qed.


(** X6.  The fallback name holds no slash, no backslash and no double
    quote, so it cannot end the quoted parameter it is written in; making
    the fallback of a fallback changes nothing, and a name without these
    characters is its own fallback. *)
Theorem fallback_has_no_delimiter (filename : string) :
  allChars (fun c => negb (isDelimiter c)) (fallback filename) = true /\
  fallback (fallback filename) = fallback filename /\
  (allChars (fun c => negb (isDelimiter c)) filename = true ->
   fallback filename = filename).
Proof.
  unfold allChars, fallback, isDelimiter. set (cls := JS.one_of _).
  assert (Hu : cls "_"%char = false) by reflexivity.
  assert (forall s, forallb (fun c => negb (cls c)) (list_ascii_of_string s) = true ->
                    JS.replaceClass cls (fun _ => "_") s = s) as Hid.
  { induction s as [| c s IH]; [reflexivity |]. cbn [list_ascii_of_string forallb].
    intros H. apply andb_true_iff in H as [Hc Hs].
    cbn [JS.replaceClass]. apply negb_true_iff in Hc. rewrite Hc, (IH Hs).
    reflexivity. }
  assert (forall s, forallb (fun c => negb (cls c))
                      (list_ascii_of_string (JS.replaceClass cls (fun _ => "_") s))
                    = true) as Hsafe.
  { induction s as [| c s IH]; [reflexivity |]. cbn [JS.replaceClass].
    rewrite DownloadFacts.forallb_app_string, IH, andb_true_r.
    destruct (cls c) eqn:E; cbn [list_ascii_of_string forallb];
      rewrite ?Hu, ?E; reflexivity. }
  split; [apply Hsafe |]. split; [apply Hid, Hsafe | apply Hid].
Qed.

End ResponseFacts.

(** ** The pipeline, further *)

Module RunFacts.
Import Responses GuardEngine Handler PipelineFacts Spec Spec2 Samples Samples2.

(** What the handler answers once the user's function is reached. *)
Lemma handleRoute_reaches_fn fn schemas guard req ctx
    t1 cb ad t2 pv t3 qv t4 bv :
  guardStep guard req = (t1, Normal (cb, ad)) ->
  paramsStep schemas ctx = (t2, Normal pv) ->
  queryStep schemas req = (t3, Normal qv) ->
  bodyStep schemas req = (t4, Normal bv) ->
  handleRoute fn schemas guard req ctx =
  match fn (fnCtx req pv qv bv cb ad) with
  | Ok r => ((t1 ++ t2 ++ t3 ++ t4 ++ [EvUserLogic])%list, Ok r)
  | Throw e =>
      ((t1 ++ t2 ++ t3 ++ t4 ++ [EvUserLogic] ++ logOf e)%list,
       Ok (translate e))
  end.
Proof.
  intros Hg Hp Hq Hb. rewrite (handleRoute_admitted _ _ _ _ _ _ _ _ Hg).
  unfold tryStatement. rewrite Hp, bind_normal, Hq. cbn beta iota.
  rewrite bind_normal, Hb. cbn beta iota. rewrite bind_normal.
  unfold fnCtx. destruct (fn _) as [r | e]; [| destruct e]; cbn;
    rewrite ?app_nil_r; repeat rewrite <- List.app_assoc; reflexivity.
Qed.

Lemma paramsStep_plain (schemas : option Schemas) (ctx : RouteContext) (p : value) :
  schemaOf paramsSchema schemas = None ->
  awaitedParams ctx = Ok p ->
  paramsStep schemas ctx = ([EvAwaitParams], Normal (nullish p (VObj ∅))).
Proof.
  intros Hs Hp. unfold paramsStep. unfold awaitedParams in Hp.
  rewrite Hs, Hp. reflexivity.
Qed.

Lemma paramsStep_valid (schemas : option Schemas) (ctx : RouteContext)
    (s : Schema) (p d : value) :
  schemaOf paramsSchema schemas = Some s ->
  awaitedParams ctx = Ok p ->
  s p = Success d ->
  paramsStep schemas ctx = ([EvAwaitParams; EvValidate Parameters], Normal d).
Proof.
  intros Hs Hp Hd. unfold paramsStep, validated, validateWithSchema.
  unfold awaitedParams in Hp. rewrite Hs, Hp. cbn. rewrite Hd. reflexivity.
Qed.

Lemma paramsStep_invalid (schemas : option Schemas) (ctx : RouteContext)
    (s : Schema) (p : value) (issues : list value) :
  schemaOf paramsSchema schemas = Some s ->
  awaitedParams ctx = Ok p ->
  s p = Failure issues ->
  paramsStep schemas ctx =
  ([EvAwaitParams; EvValidate Parameters], Return (invalid Parameters issues)).
Proof.
  intros Hs Hp Hd. unfold paramsStep, validated, validateWithSchema.
  unfold awaitedParams in Hp. rewrite Hs, Hp. cbn. rewrite Hd. reflexivity.
Qed.


(** X7.  A route without guard and without schemas calls the user's
    function with the awaited parameters, or an empty object when there are
    none, an empty query, an undefined body and no authentication data, and
    answers with the response of the function as it is. *)
Theorem plain_route_returns_fn_response (fn : FnCtx -> Res Response)
    (schemas : option Schemas) (req : Request) (ctx : RouteContext)
    (p : value) (r : Response) :
  schemas = None \/
    schemas = Some {| paramsSchema := None; querySchema := None;
                      bodySchema := None |} ->
  awaitedParams ctx = Ok p ->
  fn (fnCtx req (nullish p (VObj ∅)) (VObj ∅) VUndefined
        (fun _ => Ok tt) VUndefined) = Ok r ->
  handleRoute fn schemas None req ctx = ([EvAwaitParams; EvUserLogic], Ok r).
Proof.
  intros Hs Hp Hr.
  rewrite (handleRoute_reaches_fn fn schemas None req ctx
             [] (fun _ => Ok tt) VUndefined
             [EvAwaitParams] (nullish p (VObj ∅)) [] (VObj ∅) [] VUndefined).
  - rewrite Hr. reflexivity.
  - reflexivity.
  - apply paramsStep_plain; [destruct Hs as [-> | ->]; reflexivity | exact Hp].
  - destruct Hs as [-> | ->]; reflexivity.
  - destruct Hs as [-> | ->]; reflexivity.
Qed.

Lemma plain_route_returns_fn_response_witness :
  handleRoute (fun c => Ok (httpOk (fn_params c) None)) None None
    sampleRequest {| params := None |} =
  ([EvAwaitParams; EvUserLogic], Ok (httpOk (VObj ∅) None)).
Proof.
  apply (plain_route_returns_fn_response
           (fun c => Ok (httpOk (fn_params c) None)) None
           sampleRequest {| params := None |} VUndefined
           (httpOk (VObj ∅) None) (or_introl eq_refl) eq_refl eq_refl).
Defined.





(** X10.  With a parameter schema, the value that is validated is the
    awaited value itself, [undefined] when the route has no parameters.
    When the schema rejects it, the handler answers 400 with
    [Invalid parameters] and the issues of the schema, whatever the query
    and the body are: the query is not validated, the body is not read and
    the user's function is not called. *)
Theorem invalid_params_first (fn : FnCtx -> Res Response)
    (schemas : Schemas) (guard : option Guard)
    (req : Request) (ctx : RouteContext)
    (t1 : list Event) (cb : value -> Res unit) (ad : value)
    (s : Schema) (p : value) (issues : list value) :
  guardStep guard req = (t1, Normal (cb, ad)) ->
  paramsSchema schemas = Some s ->
  awaitedParams ctx = Ok p ->
  s p = Failure issues ->
  handleRoute fn (Some schemas) guard req ctx =
    ((t1 ++ [EvAwaitParams; EvValidate Parameters])%list,
     Ok (invalid Parameters issues)) /\
  status (invalid Parameters issues) = 400 /\
  body (invalid Parameters issues) =
    JsonBody (VObj (<["error" := VStr "Invalid parameters"]>
                    {[ "issues" := VArr issues ]})).
Proof.
  intros Hg Hs Hp Hf. split; [| split; reflexivity].
  rewrite (handleRoute_admitted _ _ _ _ _ _ _ _ Hg).
  unfold tryStatement.
  rewrite (paramsStep_invalid (Some schemas) ctx s p issues Hs Hp Hf).
  reflexivity.
Qed.

Lemma invalid_params_first_witness :
  handleRoute (fun _ => Ok (httpOk VNull None)) (Some strictParams) None
    sampleRequest {| params := None |} =
  ([EvAwaitParams; EvValidate Parameters],
   Ok (invalid Parameters [VStr "rejected"])).
Proof.
  destruct (invalid_params_first (fun _ => Ok (httpOk VNull None))
              strictParams None sampleRequest {| params := None |}
              [] (fun _ => Ok tt) VUndefined rejectAll VUndefined
              [VStr "rejected"] eq_refl eq_refl eq_refl eq_refl) as [H _].
  exact H.
Defined.

(** The body step on a raw body that was read. *)
Lemma bodyStep_read (schemas : Schemas) (req : Request) (s : Schema)
    (t : list Event) (raw : value) :
  bodySchema schemas = Some s ->
  readBody req = (t, Normal raw) ->
  bodyStep (Some schemas) req =
  match s raw with
  | Success d => ((t ++ [EvValidate Body_])%list, Normal d)
  | Failure issues =>
      ((t ++ [EvValidate Body_])%list, Return (invalid Body_ issues))
  end.
Proof.
  intros Hs Hr. unfold bodyStep. cbn [schemaOf mbind option_bind].
  rewrite Hs, Hr, bind_normal. unfold validated, validateWithSchema.
  destruct (s raw); reflexivity.
Qed.

(** X11.  When the body has been read and the body schema rejects it, the
    handler answers 400 with [Invalid body] and the issues of the schema,
    and the user's function is not called. *)
Theorem invalid_body_rejected (fn : FnCtx -> Res Response)
    (schemas : Schemas) (guard : option Guard)
    (req : Request) (ctx : RouteContext)
    (t1 : list Event) (cb : value -> Res unit) (ad : value)
    (t2 : list Event) (pv : value) (t3 : list Event) (qv : value)
    (t4 : list Event) (s : Schema) (raw : value) (issues : list value) :
  guardStep guard req = (t1, Normal (cb, ad)) ->
  paramsStep (Some schemas) ctx = (t2, Normal pv) ->
  queryStep (Some schemas) req = (t3, Normal qv) ->
  bodySchema schemas = Some s ->
  readBody req = (t4, Normal raw) ->
  s raw = Failure issues ->
  handleRoute fn (Some schemas) guard req ctx =
    ((t1 ++ t2 ++ t3 ++ t4 ++ [EvValidate Body_])%list,
     Ok (invalid Body_ issues)) /\
  status (invalid Body_ issues) = 400 /\
  body (invalid Body_ issues) =
    JsonBody (VObj (<["error" := VStr "Invalid body"]>
                    {[ "issues" := VArr issues ]})).
Proof.
  intros Hg Hp Hq Hs Hr Hf. split; [| split; reflexivity].
  rewrite (handleRoute_admitted _ _ _ _ _ _ _ _ Hg).
  unfold tryStatement. rewrite Hp, bind_normal, Hq. cbn beta iota.
  rewrite bind_normal, (bodyStep_read schemas req s t4 raw Hs Hr), Hf.
  reflexivity.
Qed.

Lemma invalid_body_rejected_witness :
  handleRoute (fun _ => Ok (httpOk VNull None)) (Some strictBody) None
    sampleRequest {| params := None |} =
  ([EvAwaitParams; EvJson; EvValidate Body_],
   Ok (invalid Body_ [VStr "rejected"])).
Proof.
  destruct (invalid_body_rejected (fun _ => Ok (httpOk VNull None))
              strictBody None sampleRequest {| params := None |}
              [] (fun _ => Ok tt) VUndefined [EvAwaitParams] (VObj ∅)
              [] (VObj ∅) [EvJson] rejectAll VNull [VStr "rejected"]
              eq_refl eq_refl eq_refl eq_refl eq_refl eq_refl) as [H _].
  exact H.
Defined.

(** X12.  Reading the body never throws: it ends with a raw body or with a
    response of status 400 or 415, and it reads the request at most once,
    as a form or as JSON. *)
Theorem readBody_never_throws (req : Request) :
  exists t,
    (t = [] \/ t = [EvFormData] \/ t = [EvJson]) /\
    ((exists raw, readBody req = (t, Normal raw)) \/
     (exists r, readBody req = (t, Return r) /\
                (status r = 400 \/ status r = 415))).
Proof.
  unfold readBody.
  destruct (JS.startsWith _ _).
  - exists [EvFormData]. split; [auto |].
    destruct (formData req); cbn; [left | right]; eauto.
  - destruct (JS.includes _ _ || String.eqb _ _).
    + exists [EvJson]. split; [auto |].
      destruct (json req); cbn; [left | right]; eauto.
    + exists []. split; [auto |]. right. cbn. eauto.
Qed.

End RunFacts.

(** ** Forms and queries as objects *)

Module EntriesFacts.
Import Responses GuardEngine Handler PipelineFacts Spec Spec2 Samples Samples2.


Lemma valuesOf_cons {A} (k k' : string) (v : A) (l : list (string * A)) :
  valuesOf k ((k', v) :: l) =
  if decide (k' = k) then v :: valuesOf k l else valuesOf k l.
Proof.
  unfold valuesOf. rewrite filter_cons. cbn [fst].
  destruct (decide (k' = k)); reflexivity.
Qed.


Lemma valuesOf_snoc {A} (k k' : string) (v : A) (l : list (string * A)) :
  valuesOf k (l ++ [(k', v)])%list =
  (valuesOf k l ++ (if decide (k' = k) then [v] else []))%list.
Proof.
  unfold valuesOf. rewrite filter_app, fmap_app. f_equal.
  rewrite filter_cons. cbn [fst]. destruct (decide (k' = k)); reflexivity.
Qed.

Lemma valuesOf_fmap {A B} (f : A -> B) (k : string) (l : list (string * A)) :
  valuesOf k (prod_map id f <$> l) = f <$> valuesOf k l.
Proof.
  induction l as [| [k' v] l IH]; [reflexivity |].
  cbn [fmap list_fmap prod_map id fst snd]. rewrite !valuesOf_cons.
  destruct (decide (k' = k)); cbn [fmap list_fmap]; rewrite <- IH; reflexivity.
Qed.


Lemma fromEntries_snoc (l : list (string * value)) (k : string) (v : value) :
  fromEntries (l ++ [(k, v)])%list = <[k := v]> (fromEntries l).
Proof. unfold fromEntries. rewrite foldl_app. reflexivity. Qed.

Lemma fromEntries_last (l : list (string * value)) (k : string) :
  fromEntries l !! k = last (valuesOf k l).
Proof.
  induction l as [| [k' v] l IH] using rev_ind; [apply lookup_empty |].
  rewrite fromEntries_snoc, valuesOf_snoc.
  destruct (decide (k' = k)) as [-> | Hne].
  - rewrite lookup_insert_eq, last_snoc. reflexivity.
  - rewrite lookup_insert_ne by exact Hne. rewrite app_nil_r. exact IH.
Qed.

(** X14.  The query that a query schema validates is an object with one
    string per name of the query string: the last value, when a name is
    given several times. *)
Theorem query_last_value_wins (schemas : Schemas) (req : Request) (s : Schema) :
  querySchema schemas = Some s ->
  exists m : gmap string value,
    queryStep (Some schemas) req = validated s (VObj m) Query /\
    forall k, m !! k = VStr <$> last (valuesOf k (searchParams req)).
Proof.
  intros Hs. eexists. split.
  - unfold queryStep. cbn [schemaOf mbind option_bind]. rewrite Hs. reflexivity.
  - intros k. rewrite fromEntries_last, valuesOf_fmap, fmap_last. reflexivity.
Qed.

Lemma query_last_value_wins_witness :
  exists m : gmap string value,
    queryStep (Some strictParams) repeatedQuery =
      validated rejectAll (VObj m) Query /\
    m !! "page" = Some (VStr "3").
Proof.
  destruct (query_last_value_wins strictParams repeatedQuery rejectAll eq_refl)
    as (m & Hq & Hm).
  exists m. split; [exact Hq |]. rewrite Hm. reflexivity.
Defined.

End EntriesFacts.

(** ** Guards in the pipeline *)

Module GuardRunFacts.
Import Responses GuardEngine Handler GuardFacts PipelineFacts RunFacts.
Import Spec Spec2 Samples Samples2.

Lemma initGuards_guard (options : InitGuardOptions) (act : string) (p : Permission) :
  guardChecks options !! act = Some p ->
  initGuards options !! act =
  Some {| action := act;
          permissionHandlerGenerator := _permissionHandlerGenerator options |}.
Proof. intros H. rewrite initGuards_lookup, H. reflexivity. Qed.

Lemma guardStep_deferred (g : Guard) (req : Request) (ph : PermissionHandler) :
  permissionHandlerGenerator g (action g) req = Ok ph ->
  needResource ph = true ->
  guardStep (Some g) req =
  ([EvGuard],
   Normal (fun resource =>
             match handler ph (Some resource) with
             | Ok authorized =>
                 if negb authorized then Throw (Forbidden None) else Ok tt
             | Throw e => Throw e
             end,
           GuardEngine.authData ph)).
Proof.
  intros H Hn. unfold guardStep. rewrite H. cbn. rewrite Hn. reflexivity.
Qed.

(** The guard step of a guard made from a check with two parameters. *)
Lemma guardStep_resource_scoped (options : InitGuardOptions) (act : string)
    (p : Permission) (ad : value) (req : Request) :
  guardChecks options !! act = Some p ->
  arity p = 2%nat ->
  auth options req = Ok ad ->
  exists cb,
    guardStep (Some {| action := act;
                       permissionHandlerGenerator :=
                         _permissionHandlerGenerator options |}) req =
      ([EvGuard], Normal (cb, ad)) /\
    forall resource, cb resource = checkResource p ad resource.
Proof.
  intros Hp Har Hauth.
  destruct (generator_ok options act req ad p Hauth Hp)
    as (ph & Hph & Hn & Had & Hh).
  eexists. split.
  - rewrite (guardStep_deferred
               {| action := act;
                  permissionHandlerGenerator :=
                    _permissionHandlerGenerator options |} req ph Hph);
      [rewrite Had; reflexivity |].
    rewrite Hn, Har. reflexivity.
  - intros resource. cbn beta. rewrite Hh, Har. cbn [Nat.eqb].
    change (default VUndefined (Some resource)) with resource.
    unfold checkResource.
    destruct (call p [ad; resource]) as [[|] |]; reflexivity.
Qed.

(** X15.  A guard made from a check with two parameters does not evaluate
    the check before the user's function runs: the guard step only
    authenticates, and yields a callback that, on a resource, returns
    normally when the check holds of the caller and the resource, throws
    [Forbidden] when it does not, and throws what the check throws. *)
Theorem resource_check_deferred (options : InitGuardOptions) (act : string)
    (p : Permission) (ad : value) (req : Request) :
  guardChecks options !! act = Some p ->
  arity p = 2%nat ->
  auth options req = Ok ad ->
  exists g cb,
    initGuards options !! act = Some g /\
    guardStep (Some g) req = ([EvGuard], Normal (cb, ad)) /\
    forall resource,
      cb resource =
      match call p [ad; resource] with
      | Ok true => Ok tt
      | Ok false => Throw (HttpError 403 "Forbidden")
      | Throw e => Throw e
      end.
Proof.
  intros Hp Har Hauth.
  destruct (guardStep_resource_scoped options act p ad req Hp Har Hauth)
    as (cb & Hg & Hcb).
  eexists _, cb. split; [apply (initGuards_guard options act p Hp) |].
  split; [exact Hg | exact Hcb].
Qed.

Lemma resource_check_deferred_witness :
  exists g cb,
    initGuards sampleOptions !! "canEdit" = Some g /\
    guardStep (Some g) sampleRequest = ([EvGuard], Normal (cb, VStr "alice")) /\
    cb ownedByCaller = Ok tt /\
    cb ownedByOther = Throw (HttpError 403 "Forbidden").
Proof.
  destruct (resource_check_deferred sampleOptions "canEdit" ownerOnly
              (VStr "alice") sampleRequest eq_refl eq_refl eq_refl)
    as (g & cb & Hg & Hs & Hcb).
  exists g, cb. split; [exact Hg |]. split; [exact Hs |].
  split; rewrite Hcb; reflexivity.
Defined.

(** X16.  On a route guarded by a check with two parameters, a request that
    passes the parameters, the query and the body reaches the user's
    function.  When the function first calls the callback on a resource for
    which the check is false, the handler answers 403 with the message
    Forbidden; when the check is true, the answer is that of the function
    without the call. *)
Theorem resource_denied_in_user_logic (options : InitGuardOptions)
    (act : string) (p : Permission) (ad : value)
    (fn : FnCtx -> Res Response) (schemas : option Schemas)
    (req : Request) (ctx : RouteContext) (resource : value)
    (t2 : list Event) (pv : value) (t3 : list Event) (qv : value)
    (t4 : list Event) (bv : value) :
  guardChecks options !! act = Some p ->
  arity p = 2%nat ->
  auth options req = Ok ad ->
  paramsStep schemas ctx = (t2, Normal pv) ->
  queryStep schemas req = (t3, Normal qv) ->
  bodyStep schemas req = (t4, Normal bv) ->
  exists g,
    initGuards options !! act = Some g /\
    (call p [ad; resource] = Ok false ->
     handleRoute (checkingFirst resource fn) schemas (Some g) req ctx =
     (([EvGuard] ++ t2 ++ t3 ++ t4 ++ [EvUserLogic])%list,
      Ok (httpError 403 "Forbidden"))) /\
    (call p [ad; resource] = Ok true ->
     handleRoute (checkingFirst resource fn) schemas (Some g) req ctx =
     handleRoute fn schemas (Some g) req ctx).
Proof.
  intros Hp Har Hauth Hps Hqs Hbs.
  destruct (guardStep_resource_scoped options act p ad req Hp Har Hauth)
    as (cb & Hg & Hcb).
  eexists. split; [apply (initGuards_guard options act p Hp) |].
  rewrite !(handleRoute_reaches_fn _ schemas _ req ctx
              _ _ _ _ _ _ _ _ _ Hg Hps Hqs Hbs).
  unfold checkingFirst. cbn [handleResourcePermission fnCtx].
  rewrite Hcb. unfold checkResource.
  split; intros ->; reflexivity.
Qed.

Lemma resource_denied_in_user_logic_witness :
  exists g,
    initGuards sampleOptions !! "canEdit" = Some g /\
    handleRoute (checkingFirst ownedByOther (fun _ => Ok (httpOk VNull None)))
      None (Some g) sampleRequest {| params := None |} =
    ([EvGuard; EvAwaitParams; EvUserLogic], Ok (httpError 403 "Forbidden")).
Proof.
  destruct (resource_denied_in_user_logic sampleOptions "canEdit" ownerOnly
              (VStr "alice") (fun _ => Ok (httpOk VNull None)) None
              sampleRequest {| params := None |} ownedByOther
              [EvAwaitParams] (VObj ∅) [] (VObj ∅) [] VUndefined
              eq_refl eq_refl eq_refl eq_refl eq_refl eq_refl)
    as (g & Hg & Hdenied & _).
  exists g. split; [exact Hg |]. apply Hdenied. reflexivity.
Defined.

(** X17.  A check that is registered with a number of parameters other
    than one or two closes its route: every authenticated request is
    answered 403 before anything is validated, and the check itself is
    never evaluated. *)
Theorem misdeclared_check_denies_all (options : InitGuardOptions)
    (act : string) (p : Permission) (ad : value)
    (fn : FnCtx -> Res Response) (schemas : option Schemas)
    (req : Request) (ctx : RouteContext) :
  guardChecks options !! act = Some p ->
  arity p <> 1%nat -> arity p <> 2%nat ->
  auth options req = Ok ad ->
  exists g,
    initGuards options !! act = Some g /\
    handleRoute fn schemas (Some g) req ctx =
      ([EvGuard; EvCheck], Ok (httpError 403 "Forbidden")).
Proof.
  intros Hp N1 N2 Hauth.
  destruct (generator_ok options act req ad p Hauth Hp)
    as (ph & Hph & Hn & _ & Hh).
  apply Nat.eqb_neq in N1, N2. rewrite N2 in Hn.
  eexists. split; [apply (initGuards_guard options act p Hp) |].
  rewrite handleRoute_unfold.
  rewrite (guardStep_denied
             {| action := act;
                permissionHandlerGenerator :=
                  _permissionHandlerGenerator options |} req ph Hph Hn);
    [reflexivity |].
  rewrite Hh, N1, N2. reflexivity.
Qed.

Lemma misdeclared_check_denies_all_witness :
  exists g,
    initGuards misdeclaredOptions !! "publish" = Some g /\
    handleRoute (fun _ => Ok (httpOk VNull None)) None (Some g)
      sampleRequest {| params := None |} =
    ([EvGuard; EvCheck], Ok (httpError 403 "Forbidden")).
Proof.
  apply (misdeclared_check_denies_all misdeclaredOptions "publish" misdeclared
           (VStr "alice") (fun _ => Ok (httpOk VNull None)) None
           sampleRequest {| params := None |} eq_refl);
    [discriminate | discriminate | reflexivity].
Defined.



(** X19.  The authentication data that the guard step of a guard made by
    [initGuards] hands on, and that the user's function receives, is what
    the authentication function returned for the request. *)
Theorem authData_from_auth (options : InitGuardOptions) (act : string)
    (g : Guard) (req : Request)
    (t : list Event) (cb : value -> Res unit) (ad : value) :
  initGuards options !! act = Some g ->
  guardStep (Some g) req = (t, Normal (cb, ad)) ->
  auth options req = Ok ad.
Proof.
  intros Hg Hs. rewrite initGuards_lookup in Hg.
  destruct (guardChecks options !! act) as [p |] eqn:Hp; [| discriminate Hg].
  injection Hg as <-.
  destruct (auth options req) as [ad' | e] eqn:Hauth.
  - destruct (generator_ok options act req ad' p Hauth Hp)
      as (ph & Hph & _ & Had & _).
    unfold guardStep in Hs. cbn [action permissionHandlerGenerator] in Hs.
    rewrite Hph in Hs. cbn in Hs. rewrite Had in Hs.
    destruct (needResource ph); cbn in Hs.
    + injection Hs as _ _ <-. reflexivity.
    + destruct (handler ph None) as [[|] |]; cbn in Hs;
        try discriminate Hs. injection Hs as _ _ <-. reflexivity.
  - unfold guardStep, _permissionHandlerGenerator in Hs.
    cbn [action permissionHandlerGenerator] in Hs. rewrite Hauth in Hs.
    discriminate Hs.
Qed.

Lemma authData_from_auth_witness :
  auth sampleOptions sampleRequest = Ok (VStr "alice").
Proof.
  apply (authData_from_auth sampleOptions "loggedIn"
           {| action := "loggedIn";
              permissionHandlerGenerator :=
                _permissionHandlerGenerator sampleOptions |}
           sampleRequest [EvGuard; EvCheck] (fun _ => Ok tt) (VStr "alice")
           eq_refl eq_refl).
Defined.



(** X21.  A guard whose check needs no resource and passes is transparent
    but for the authentication data: after the guard and its check, the
    handler does what the handler of the same route without the guard does
    for a function that is given these data. *)
Theorem passed_guard_transparent (fn : FnCtx -> Res Response)
    (schemas : option Schemas) (g : Guard) (req : Request)
    (ctx : RouteContext) (ph : PermissionHandler) :
  permissionHandlerGenerator g (action g) req = Ok ph ->
  needResource ph = false ->
  handler ph None = Ok true ->
  handleRoute fn schemas (Some g) req ctx =
  (([EvGuard; EvCheck] ++
    (handleRoute (withAuthData (GuardEngine.authData ph) fn)
       schemas None req ctx).1)%list,
   (handleRoute (withAuthData (GuardEngine.authData ph) fn)
      schemas None req ctx).2).
Proof.
  intros Hgen Hn Hh.
  rewrite (handleRoute_admitted fn schemas (Some g) req ctx _ _ _
             (guardStep_passed g req ph Hgen Hn Hh)).
  rewrite (handleRoute_admitted (withAuthData (GuardEngine.authData ph) fn)
             schemas None req ctx [] (fun _ => Ok tt) VUndefined eq_refl).
  reflexivity.
Qed.

Lemma passed_guard_transparent_witness :
  handleRoute (fun c => Ok (httpOk (fn_authData c) None)) None
    (Some {| action := "loggedIn";
             permissionHandlerGenerator :=
               _permissionHandlerGenerator sampleOptions |})
    sampleRequest {| params := None |} =
  ([EvGuard; EvCheck; EvAwaitParams; EvUserLogic],
   Ok (httpOk (VStr "alice") None)).
Proof.
  destruct (generator_ok sampleOptions "loggedIn" sampleRequest (VStr "alice")
              anyone eq_refl eq_refl) as (ph & Hph & Hn & Had & Hh).
  rewrite (passed_guard_transparent
             (fun c => Ok (httpOk (fn_authData c) None)) None
             {| action := "loggedIn";
                permissionHandlerGenerator :=
                  _permissionHandlerGenerator sampleOptions |}
             sampleRequest {| params := None |} ph Hph Hn
             (eq_trans (Hh None) eq_refl)).
  rewrite Had. reflexivity.
Defined.

End GuardRunFacts.

(** ** The schemas, further *)

Module SchemaFacts.
Import Responses GuardEngine Handler Schemas IdSchemas PipelineFacts QueryFacts.
Import Spec Spec2 Samples Samples2.

Section Zod.

Variable isDatetime : string -> bool.
Variable DateParse : string -> option Z.
Variable NumberInt : value -> option Z.
Variable mergeValues : value -> value -> option value.

#[local] Abbreviation QuerySchema := (Schemas.QuerySchema isDatetime NumberInt).
#[local] Abbreviation withDefaultQuerySchema :=
  (Schemas.withDefaultQuerySchema isDatetime DateParse NumberInt mergeValues).
#[local] Abbreviation crossFieldCheck := (Schemas.crossFieldCheck DateParse).







End Zod.





End SchemaFacts.
